(** * csilvm: the plugin bootstrap program and the client bundle

    A shallow embedding of [cmd/csilvm/csilvm.go] (the process entry
    point) and of [lvs/client.go] (the client bundle), with the
    properties of their specification stated and proved over it.

    Go strings are byte strings: they are embedded as [string], whose
    characters are the 256 values of [ascii], so [String.length] is Go's
    [len].  A Go [int] and a Go [uint64] are embedded as [Z]; the program
    compares and passes them on, it does no arithmetic on them.

    The collaborators whose code is outside the repository (the [flag],
    [log], [net], [os] and [strings] packages, gRPC, and the [csilvm],
    [lvm] and [csi] packages) appear as constructors of the values handed
    to them, as events of the run, and as the [World] that answers the
    calls whose result the program inspects. *)

From Stdlib Require Import String Ascii List ZArith Bool Lia.
Import ListNotations.
Local Open Scope string_scope.

(** ** Strings and slices, as the program uses them *)

Module strings.

(** [strings.HasPrefix(s, prefix)] *)
Definition HasPrefix (s prefix : string) : bool := String.prefix prefix s.

(** The slice expression [s[n:]].  Go panics when [n > len(s)]; the one
    use in [main] is guarded by [HasPrefix], so that case is never reached
    and the model returns the empty string there. *)
Fixpoint slice_from (n : nat) (s : string) : string :=
  match n, s with
  | O, _ => s
  | S _, EmptyString => EmptyString
  | S n', String _ s' => slice_from n' s'
  end.

(** [strings.Split(s, sep)] for a separator of one byte, the only way
    [main] calls it: every byte equal to [sep] ends a segment, nothing is
    trimmed and no segment is dropped. *)
Fixpoint Split (s : string) (sep : ascii) : list string :=
  match s with
  | EmptyString => [EmptyString]
  | String c s' =>
      if Ascii.eqb c sep then EmptyString :: Split s' sep
      else match Split s' sep with
           | [] => [String c EmptyString]
           | seg :: segs => String c seg :: segs
           end
  end.

(** [strings.Count(s, sep)] for a separator of one byte. *)
Fixpoint Count (s : string) (sep : ascii) : nat :=
  match s with
  | EmptyString => O
  | String c s' => (if Ascii.eqb c sep then 1 else 0) + Count s' sep
  end.

(** [strings.Join(a, sep)] *)
Definition Join (a : list string) (sep : string) : string :=
  String.concat sep a.

(** [strings.IndexByte(s, c) >= 0] *)
Fixpoint ContainsByte (s : string) (c : ascii) : bool :=
  match s with
  | EmptyString => false
  | String d s' => Ascii.eqb d c || ContainsByte s' c
  end.

End strings.

(** ** Values exchanged with the collaborators *)

(** A Go [error], kept as its message. *)
Definition error := string.

(** An operand of a [Printf]-style call; the verb that prints it is in the
    format string. *)
Inductive FmtArg : Type :=
| ArgString (s : string)
| ArgInt (n : Z)
| ArgError (e : error).

Module log.

Definition Ldate : Z := 1.
Definition Ltime : Z := 2.
Definition Lshortfile : Z := 16.
Definition LstdFlags : Z := Z.lor Ldate Ltime.

Inductive Writer : Type := Stderr.

(** [log.New(out, prefix, flag)] *)
Record Logger : Type := New {
  out : Writer;
  prefix : string;
  flags : Z
}.

(** The logger behind the package-level functions ([log.Fatalf] and the
    like): standard error, no prefix, the standard flags. *)
Definition std : Logger := New Stderr "" LstdFlags.

End log.

(** What [log.Fatalf] leaves behind: the logger the line went through,
    the format and its operands.  The process then exits with status 1. *)
Record Fatal : Type := mkFatal {
  fatal_logger : log.Logger;
  fatal_format : string;
  fatal_args : list FmtArg
}.

Module grpc.

(** The unary interceptors the [csilvm] package builds. *)
#[warnings="-register-all"]
Inductive UnaryServerInterceptor : Type :=
| RequestLimitInterceptor (limit : Z)
| SerializingInterceptor
| LoggingInterceptor
| ChainUnaryServer (interceptors : list UnaryServerInterceptor).

Inductive ServerOption : Type :=
| UnaryInterceptor (i : UnaryServerInterceptor).

(** [grpc.NewServer(opts...)] *)
Record Server : Type := NewServer { server_opts : list ServerOption }.

End grpc.

Module csilvm.

Inductive ServerOpt : Type :=
| NodeID (id : string)
| DefaultVolumeSize (size : Z)
| ProbeModules (modules : list string)
| RemoveVolumeGroup
| Tag (tag : string).

(** [csilvm.NewServer(vgname, pvnames, defaultFs, opts...)] *)
Record Server : Type := NewServer {
  vgname : string;
  pvnames : list string;
  defaultFs : string;
  opts : list ServerOpt
}.

End csilvm.

(** A listener returned by [net.Listen]. *)
Record Listener : Type := mkListener {
  lis_network : string;
  lis_address : string
}.

(** The filesystems a server supports, as the external library reports
    them; the program only passes the value on. *)
Definition Filesystems := list string.

(** The three validating adapters registered with the gRPC server. *)
Inductive Service : Type :=
| IdentityServerValidator (s : csilvm.Server)
| ControllerServerValidator (s : csilvm.Server) (removing : bool) (fs : Filesystems)
| NodeServerValidator (s : csilvm.Server) (removing : bool) (fs : Filesystems).

(** The answers of the environment to the calls whose result [main] looks
    at.  [os_Getenv] gives the empty string for a variable that is not set;
    [net_Listen] and [Server_Setup] give the error, if any. *)
Record World : Type := mkWorld {
  os_Getenv : string -> string;
  net_Listen : string -> string -> option error;
  Server_Setup : csilvm.Server -> option error;
  Server_RemovingVolumeGroup : csilvm.Server -> bool;
  Server_SupportedFilesystems : csilvm.Server -> Filesystems
}.

(** The calls [main] makes on its collaborators, in program order. *)
Inductive Event : Type :=
| EvCsilvmSetLogger (l : log.Logger)
| EvLvmSetLogger (l : log.Logger)
| EvListen (network address : string)
| EvGrpcNewServer (g : grpc.Server)
| EvNewServer (s : csilvm.Server)
| EvSetup (s : csilvm.Server)
| EvRegisterIdentityServer (g : grpc.Server) (srv : Service)
| EvRegisterControllerServer (g : grpc.Server) (srv : Service)
| EvRegisterNodeServer (g : grpc.Server) (srv : Service)
| EvServe (g : grpc.Server) (lis : option Listener).

(** ** The monad of a run

    A run is the trace of its events, ended by a value or by a fatal
    exit. *)

Definition Run (A : Type) : Type := (list Event * (Fatal + A))%type.

Definition ret {A} (a : A) : Run A := ([], inr a).

Definition bind {A B} (m : Run A) (k : A -> Run B) : Run B :=
  match m with
  | (tr, inl f) => (tr, inl f)
  | (tr, inr a) => let (tr', r) := k a in ((tr ++ tr')%list, r)
  end.

Definition emit (e : Event) : Run unit := ([e], inr tt).

(** [log.Fatalf(format, args...)]: the line goes through the standard
    logger and the process exits; nothing after it runs. *)
Definition log_Fatalf {A} (format : string) (args : list FmtArg) : Run A :=
  ([], inl (mkFatal log.std format args)).

(** [if cond { body }] for a body without a value. *)
Definition when (cond : bool) (body : Run unit) : Run unit :=
  if cond then body else ret tt.

Declare Scope run_scope.
Delimit Scope run_scope with run.
Notation "x <- m ;; k" := (bind m (fun x => k))
  (at level 100, m at next level, right associativity) : run_scope.
Notation "m ;; k" := (bind m (fun _ => k))
  (at level 100, right associativity) : run_scope.

Definition trace {A} (r : Run A) : list Event := fst r.
Definition result {A} (r : Run A) : Fatal + A := snd r.

(** ** The command line *)

Definition defaultDefaultFs : string := "xfs".
Definition defaultDefaultVolumeSize : Z := Z.shiftl 10 30.
Definition defaultRequestLimit : Z := 10.

(** [type stringsFlag []string] *)
Definition stringsFlag := list string.

(** The [flag.Value] interface. *)
Class Value (T : Type) : Type := {
  Value_String : T -> string;
  Value_Set : T -> string -> T * option error
}.

(** [func (f *stringsFlag) String() string]: [fmt.Sprint] of a slice of
    strings prints the elements between brackets, separated by a space. *)
Definition stringsFlag_String (f : stringsFlag) : string :=
  "[" ++ String.concat " " f ++ "]".

(** [func (f *stringsFlag) Set(tag string) error] *)
Definition stringsFlag_Set (f : stringsFlag) (tag : string)
  : stringsFlag * option error :=
  ((f ++ [tag])%list, None).

#[export] Instance stringsFlag_Value : Value stringsFlag := {
  Value_String := stringsFlag_String;
  Value_Set := stringsFlag_Set
}.

(** The variables the flags are bound to. *)
Record Flags : Type := mkFlags {
  requestLimitF : Z;
  vgnameF : string;
  pvnamesF : string;
  defaultFsF : string;
  defaultVolumeSizeF : Z;
  socketFileF : string;
  socketFileEnvF : string;
  removeF : bool;
  tagsF : stringsFlag;
  probeModulesF : stringsFlag;
  nodeIDF : string
}.

(** The state of the flag variables before [flag.Parse]: the defaults
    given where the flags are declared. *)
Definition declared : Flags := {|
  requestLimitF := defaultRequestLimit;
  vgnameF := "";
  pvnamesF := "";
  defaultFsF := defaultDefaultFs;
  defaultVolumeSizeF := defaultDefaultVolumeSize;
  socketFileF := "";
  socketFileEnvF := "";
  removeF := false;
  tagsF := [];
  probeModulesF := [];
  nodeIDF := ""
|}.

(** One occurrence of a flag on the command line, as [flag.Parse] sees
    it: the flag's name and its value, already converted for the flags of
    a built-in type. *)
Inductive FlagArg : Type :=
| request_limit (n : Z)
| volume_group (s : string)
| devices (s : string)
| default_fs (s : string)
| default_volume_size (n : Z)
| unix_addr (s : string)
| unix_addr_env (s : string)
| remove_volume_group (b : bool)
| tag (s : string)
| probe_module (s : string)
| node_id (s : string).

(** What [flag.Parse] does with one occurrence: it calls [Set] on the
    value the flag is bound to.  For the built-in types that stores the
    value; for the two [flag.Var] flags it is [stringsFlag.Set], whose
    error is always nil. *)
Definition flag_set (fl : Flags) (a : FlagArg) : Flags :=
  match a with
  | request_limit n =>
      mkFlags n (vgnameF fl) (pvnamesF fl) (defaultFsF fl) (defaultVolumeSizeF fl)
        (socketFileF fl) (socketFileEnvF fl) (removeF fl) (tagsF fl)
        (probeModulesF fl) (nodeIDF fl)
  | volume_group s =>
      mkFlags (requestLimitF fl) s (pvnamesF fl) (defaultFsF fl) (defaultVolumeSizeF fl)
        (socketFileF fl) (socketFileEnvF fl) (removeF fl) (tagsF fl)
        (probeModulesF fl) (nodeIDF fl)
  | devices s =>
      mkFlags (requestLimitF fl) (vgnameF fl) s (defaultFsF fl) (defaultVolumeSizeF fl)
        (socketFileF fl) (socketFileEnvF fl) (removeF fl) (tagsF fl)
        (probeModulesF fl) (nodeIDF fl)
  | default_fs s =>
      mkFlags (requestLimitF fl) (vgnameF fl) (pvnamesF fl) s (defaultVolumeSizeF fl)
        (socketFileF fl) (socketFileEnvF fl) (removeF fl) (tagsF fl)
        (probeModulesF fl) (nodeIDF fl)
  | default_volume_size n =>
      mkFlags (requestLimitF fl) (vgnameF fl) (pvnamesF fl) (defaultFsF fl) n
        (socketFileF fl) (socketFileEnvF fl) (removeF fl) (tagsF fl)
        (probeModulesF fl) (nodeIDF fl)
  | unix_addr s =>
      mkFlags (requestLimitF fl) (vgnameF fl) (pvnamesF fl) (defaultFsF fl)
        (defaultVolumeSizeF fl) s (socketFileEnvF fl) (removeF fl) (tagsF fl)
        (probeModulesF fl) (nodeIDF fl)
  | unix_addr_env s =>
      mkFlags (requestLimitF fl) (vgnameF fl) (pvnamesF fl) (defaultFsF fl)
        (defaultVolumeSizeF fl) (socketFileF fl) s (removeF fl) (tagsF fl)
        (probeModulesF fl) (nodeIDF fl)
  | remove_volume_group b =>
      mkFlags (requestLimitF fl) (vgnameF fl) (pvnamesF fl) (defaultFsF fl)
        (defaultVolumeSizeF fl) (socketFileF fl) (socketFileEnvF fl) b (tagsF fl)
        (probeModulesF fl) (nodeIDF fl)
  | tag s =>
      mkFlags (requestLimitF fl) (vgnameF fl) (pvnamesF fl) (defaultFsF fl)
        (defaultVolumeSizeF fl) (socketFileF fl) (socketFileEnvF fl) (removeF fl)
        (fst (Value_Set (tagsF fl) s)) (probeModulesF fl) (nodeIDF fl)
  | probe_module s =>
      mkFlags (requestLimitF fl) (vgnameF fl) (pvnamesF fl) (defaultFsF fl)
        (defaultVolumeSizeF fl) (socketFileF fl) (socketFileEnvF fl) (removeF fl)
        (tagsF fl) (fst (Value_Set (probeModulesF fl) s)) (nodeIDF fl)
  | node_id s =>
      mkFlags (requestLimitF fl) (vgnameF fl) (pvnamesF fl) (defaultFsF fl)
        (defaultVolumeSizeF fl) (socketFileF fl) (socketFileEnvF fl) (removeF fl)
        (tagsF fl) (probeModulesF fl) s
  end.

(** [flag.Parse()]: the occurrences are handled from left to right. *)
Definition flag_Parse (args : list FlagArg) : Flags :=
  fold_left flag_set args declared.

(** ** The entry point *)

(** [net.Listen(network, address)] *)
Definition net_Listen_call (w : World) (network address : string)
  : Run (option Listener * option error) :=
  (emit (EvListen network address) ;;
   ret (match net_Listen w network address with
        | Some e => (None, Some e)
        | None => (Some (mkListener network address), None)
        end))%run.

(** [s.Setup()] *)
Definition Setup_call (w : World) (s : csilvm.Server) : Run (option error) :=
  (emit (EvSetup s) ;; ret (Server_Setup w s))%run.

Definition defaultMaxStringLen : nat := 128.

(** [main], from the statement after [flag.Parse()] on. *)
Definition run (fl : Flags) (w : World) : Run unit :=
  ((* Setup logging *)
   let logprefix := "[" ++ vgnameF fl ++ "]" in
   let logflags := Z.lor log.LstdFlags log.Lshortfile in
   let logger := log.New log.Stderr logprefix logflags in
   emit (EvCsilvmSetLogger logger) ;;
   emit (EvLvmSetLogger logger) ;;
   (* Determine listen address. *)
   when (negb (socketFileF fl =? "") && negb (socketFileEnvF fl =? ""))
     (log_Fatalf "[%s] cannot specify -unix-addr and -unix-addr-env"
        [ArgString (vgnameF fl)]) ;;
   let sock := socketFileF fl in
   let sock :=
     if negb (socketFileEnvF fl =? "") then os_Getenv w (socketFileEnvF fl)
     else sock in
   let sock :=
     if strings.HasPrefix sock "unix://"
     then strings.slice_from (String.length "unix://") sock
     else sock in
   (* Setup socket listener *)
   r <- net_Listen_call w "unix" sock ;;
   let (lis, err) := r : option Listener * option error in
   match err with
   | Some e => log_Fatalf "[%s] Failed to listen: %v" [ArgString (vgnameF fl); ArgError e]
   | None => ret tt
   end ;;
   (* Setup server *)
   when (requestLimitF fl <? 1)%Z
     (log_Fatalf "request-limit requires a positive, integer value instead of %d"
        [ArgInt (requestLimitF fl)]) ;;
   when (defaultMaxStringLen <? String.length (nodeIDF fl))%nat
     (log_Fatalf "node-id cannot be longer than %d bytes: %q"
        [ArgInt (Z.of_nat defaultMaxStringLen); ArgString (nodeIDF fl)]) ;;
   let grpcOpts : list grpc.ServerOption := [] in
   let grpcOpts :=
     (grpcOpts ++
      [grpc.UnaryInterceptor
         (grpc.ChainUnaryServer
            [grpc.RequestLimitInterceptor (requestLimitF fl);
             grpc.SerializingInterceptor;
             grpc.LoggingInterceptor])])%list in
   let grpcServer := grpc.NewServer grpcOpts in
   emit (EvGrpcNewServer grpcServer) ;;
   let opts := [csilvm.NodeID (nodeIDF fl)] in
   let opts :=
     (opts ++ [csilvm.DefaultVolumeSize (defaultVolumeSizeF fl);
               csilvm.ProbeModules (probeModulesF fl)])%list in
   let opts := if removeF fl then (opts ++ [csilvm.RemoveVolumeGroup])%list else opts in
   let opts := fold_left (fun opts tag => (opts ++ [csilvm.Tag tag])%list) (tagsF fl) opts in
   let s := csilvm.NewServer (vgnameF fl) (strings.Split (pvnamesF fl) ",") (defaultFsF fl) opts in
   emit (EvNewServer s) ;;
   err <- Setup_call w s ;;
   match err with
   | Some e => log_Fatalf "[%s] error initializing csilvm plugin: err=%v"
                 [ArgString (vgnameF fl); ArgError e]
   | None => ret tt
   end ;;
   emit (EvRegisterIdentityServer grpcServer (IdentityServerValidator s)) ;;
   emit (EvRegisterControllerServer grpcServer
           (ControllerServerValidator s (Server_RemovingVolumeGroup w s)
              (Server_SupportedFilesystems w s))) ;;
   emit (EvRegisterNodeServer grpcServer
           (NodeServerValidator s (Server_RemovingVolumeGroup w s)
              (Server_SupportedFilesystems w s))) ;;
   emit (EvServe grpcServer lis))%run.

(** [func main()] on the flag occurrences of its command line. *)
Definition main (args : list FlagArg) (w : World) : Run unit :=
  run (flag_Parse args) w.

(** ** Reading a run *)

(** The addresses [net.Listen] was called on. *)
Definition listened (tr : list Event) : list (string * string) :=
  flat_map (fun e => match e with EvListen n a => [(n, a)] | _ => [] end) tr.

(** The gRPC servers built. *)
Definition grpc_servers (tr : list Event) : list grpc.Server :=
  flat_map (fun e => match e with EvGrpcNewServer g => [g] | _ => [] end) tr.

(** The volume-group servers built. *)
Definition servers (tr : list Event) : list csilvm.Server :=
  flat_map (fun e => match e with EvNewServer s => [s] | _ => [] end) tr.

(** The conditions [main] tests, and the values it builds, named. *)

Definition conflict (fl : Flags) : bool :=
  negb (socketFileF fl =? "") && negb (socketFileEnvF fl =? "").

Definition resolved (fl : Flags) (w : World) : string :=
  if socketFileEnvF fl =? "" then socketFileF fl else os_Getenv w (socketFileEnvF fl).

Definition sock_of (fl : Flags) (w : World) : string :=
  if strings.HasPrefix (resolved fl w) "unix://"
  then strings.slice_from 7 (resolved fl w)
  else resolved fl w.

Definition logger_of (fl : Flags) : log.Logger :=
  log.New log.Stderr ("[" ++ vgnameF fl ++ "]") 19.

Definition grpcServer_of (fl : Flags) : grpc.Server :=
  grpc.NewServer
    [grpc.UnaryInterceptor
       (grpc.ChainUnaryServer
          [grpc.RequestLimitInterceptor (requestLimitF fl);
           grpc.SerializingInterceptor;
           grpc.LoggingInterceptor])].

Definition opts_of (fl : Flags) : list csilvm.ServerOpt :=
  ([csilvm.NodeID (nodeIDF fl);
    csilvm.DefaultVolumeSize (defaultVolumeSizeF fl);
    csilvm.ProbeModules (probeModulesF fl)]
   ++ (if removeF fl then [csilvm.RemoveVolumeGroup] else [])
   ++ map csilvm.Tag (tagsF fl))%list.

Definition server_of (fl : Flags) : csilvm.Server :=
  csilvm.NewServer (vgnameF fl) (strings.Split (pvnamesF fl) ",") (defaultFsF fl)
    (opts_of fl).

Definition fatal_conflict (fl : Flags) : Fatal :=
  mkFatal log.std "[%s] cannot specify -unix-addr and -unix-addr-env"
    [ArgString (vgnameF fl)].

Definition fatal_listen (fl : Flags) (e : error) : Fatal :=
  mkFatal log.std "[%s] Failed to listen: %v" [ArgString (vgnameF fl); ArgError e].

Definition fatal_request_limit (fl : Flags) : Fatal :=
  mkFatal log.std "request-limit requires a positive, integer value instead of %d"
    [ArgInt (requestLimitF fl)].

Definition fatal_node_id (fl : Flags) : Fatal :=
  mkFatal log.std "node-id cannot be longer than %d bytes: %q"
    [ArgInt 128; ArgString (nodeIDF fl)].

Definition fatal_setup (fl : Flags) (e : error) : Fatal :=
  mkFatal log.std "[%s] error initializing csilvm plugin: err=%v"
    [ArgString (vgnameF fl); ArgError e].

(** The events up to and including the call of [net.Listen]. *)
Definition to_listen (fl : Flags) (w : World) : list Event :=
  [EvCsilvmSetLogger (logger_of fl); EvLvmSetLogger (logger_of fl);
   EvListen "unix" (sock_of fl w)].

(** The events from the construction of the gRPC server to [Setup]. *)
Definition to_setup (fl : Flags) : list Event :=
  [EvGrpcNewServer (grpcServer_of fl); EvNewServer (server_of fl);
   EvSetup (server_of fl)].

(** The events of registration and serving. *)
Definition to_serve (fl : Flags) (w : World) : list Event :=
  let s := server_of fl in
  let removing := Server_RemovingVolumeGroup w s in
  let fs := Server_SupportedFilesystems w s in
  [EvRegisterIdentityServer (grpcServer_of fl) (IdentityServerValidator s);
   EvRegisterControllerServer (grpcServer_of fl) (ControllerServerValidator s removing fs);
   EvRegisterNodeServer (grpcServer_of fl) (NodeServerValidator s removing fs);
   EvServe (grpcServer_of fl) (Some (mkListener "unix" (sock_of fl w)))].

(** *** What a run is asked about *)

(** The four checks a run passes before it builds the servers. *)
Definition passes (fl : Flags) (w : World) : bool :=
  negb (conflict fl)
  && match net_Listen w "unix" (sock_of fl w) with None => true | Some _ => false end
  && negb (requestLimitF fl <? 1)%Z
  && negb (128 <? String.length (nodeIDF fl))%nat.

(** The values of the occurrences of [-tag], in command-line order. *)
Definition tag_values (args : list FlagArg) : list string :=
  flat_map (fun a => match a with tag s => [s] | _ => [] end) args.

(** The values of the occurrences of [-probe-module], in command-line
    order. *)
Definition probe_module_values (args : list FlagArg) : list string :=
  flat_map (fun a => match a with probe_module s => [s] | _ => [] end) args.

(** The tags of the [Tag] options of a list of options, in order. *)
Definition tag_opts (opts : list csilvm.ServerOpt) : list string :=
  flat_map (fun o => match o with csilvm.Tag t => [t] | _ => [] end) opts.

(** The module lists of the [ProbeModules] options. *)
Definition probe_opts (opts : list csilvm.ServerOpt) : list (list string) :=
  flat_map (fun o => match o with csilvm.ProbeModules m => [m] | _ => [] end) opts.

(** Whether a flag occurs on the command line. *)
Definition given_default_fs (args : list FlagArg) : bool :=
  existsb (fun a => match a with default_fs _ => true | _ => false end) args.

Definition given_default_volume_size (args : list FlagArg) : bool :=
  existsb (fun a => match a with default_volume_size _ => true | _ => false end) args.

Definition given_devices (args : list FlagArg) : bool :=
  existsb (fun a => match a with devices _ => true | _ => false end) args.

(** A fatal exit names the volume group when the name is an operand of
    the message or the prefix of the logger it went through. *)
Definition names_volume_group (fl : Flags) (f : Fatal) : Prop :=
  In (ArgString (vgnameF fl)) (fatal_args f)
  \/ log.prefix (fatal_logger f) = "[" ++ vgnameF fl ++ "]".

(** A world in which every call succeeds and no variable is set. *)
Definition quiet : World :=
  mkWorld (fun _ => "") (fun _ _ => None) (fun _ => None) (fun _ => false) (fun _ => []).

(** A string of [n] bytes [a]. *)
Fixpoint bytes (n : nat) : string :=
  match n with
  | O => ""
  | S n' => String "a" (bytes n')
  end.

(** *** Inputs the properties are tried on *)

(** A world in which [SOCK] is set to a path with the scheme. *)
Definition with_SOCK : World :=
  mkWorld (fun name => if name =? "SOCK" then "unix:///tmp/x.sock" else "")
    (fun _ _ => None) (fun _ => None) (fun _ => false) (fun _ => []).

Definition args_plain : list FlagArg :=
  [volume_group "vg0"; devices "/dev/sda"; unix_addr "/tmp/t.sock"].

Definition args_both_sources : list FlagArg :=
  [volume_group "vg0"; unix_addr "/tmp/t.sock"; unix_addr_env "SOCK"].

Definition args_env : list FlagArg :=
  [volume_group "vg0"; unix_addr_env "SOCK"].

Definition args_limit_0 : list FlagArg :=
  [volume_group "vg0"; unix_addr "/tmp/t.sock"; request_limit 0].

Definition args_node_id (n : nat) : list FlagArg :=
  [volume_group "vg0"; unix_addr "/tmp/t.sock"; node_id (bytes n)].

Definition args_repeated : list FlagArg :=
  [volume_group "vg0"; tag "a"; probe_module "m1"; unix_addr "/tmp/t.sock";
   tag "b"; probe_module "m2"; tag "c"].

Definition args_devices : list FlagArg :=
  [volume_group "vg0"; unix_addr "/tmp/t.sock"; devices "/dev/sda,,/dev/sdb,"].

Definition args_no_devices : list FlagArg :=
  [volume_group "vg0"; unix_addr "/tmp/t.sock"].

(** *** More readings of a run *)

(** The loggers handed to [csilvm.SetLogger] and [lvm.SetLogger]. *)
Definition loggers (tr : list Event) : list log.Logger :=
  flat_map (fun e => match e with
                     | EvCsilvmSetLogger l | EvLvmSetLogger l => [l]
                     | _ => []
                     end) tr.

(** The identifiers of the [NodeID] options of a list of options, in
    order. *)
Definition node_id_opts (opts : list csilvm.ServerOpt) : list string :=
  flat_map (fun o => match o with csilvm.NodeID id => [id] | _ => [] end) opts.

(** The servers [Setup] was called on. *)
Definition setups (tr : list Event) : list csilvm.Server :=
  flat_map (fun e => match e with EvSetup s => [s] | _ => [] end) tr.

(** The registrations of a service, in order. *)
Definition registrations (tr : list Event) : list Event :=
  filter (fun e => match e with
                   | EvRegisterIdentityServer _ _
                   | EvRegisterControllerServer _ _
                   | EvRegisterNodeServer _ _ => true
                   | _ => false
                   end) tr.

(** The calls of [Serve]. *)
Definition served (tr : list Event) : list (grpc.Server * option Listener) :=
  flat_map (fun e => match e with EvServe g lis => [(g, lis)] | _ => [] end) tr.

(** A world that differs from [w] in its environment variables only. *)
Definition with_Getenv (w : World) (getenv : string -> string) : World :=
  mkWorld getenv (net_Listen w) (Server_Setup w)
    (Server_RemovingVolumeGroup w) (Server_SupportedFilesystems w).

(** A world in which no socket can be bound. *)
Definition listen_fails : World :=
  mkWorld (fun _ => "") (fun _ _ => Some "bind: address already in use")
    (fun _ => None) (fun _ => false) (fun _ => []).

(** A world in which [Setup] fails. *)
Definition setup_fails : World :=
  mkWorld (fun _ => "") (fun _ _ => None)
    (fun _ => Some "volume group not found") (fun _ => false) (fun _ => ["xfs"]).

(** Whether [-remove-volume-group] occurs on the command line. *)
Definition given_remove_volume_group (args : list FlagArg) : bool :=
  existsb (fun a => match a with remove_volume_group _ => true | _ => false end) args.

Definition args_remove : list FlagArg :=
  [volume_group "vg0"; unix_addr "/tmp/t.sock"; remove_volume_group true; tag "a"].

(** ** The client bundle *)

Module lvs.

Section Client.

(** The connection type of the [grpc] package; a [*grpc.ClientConn] is
    [None] when it is nil. *)
Variable ClientConn : Type.

(** The two client interfaces of the [csi] package and their
    constructors. *)
Variables IdentityClient ControllerClient : Type.
Variable NewIdentityClient : option ClientConn -> IdentityClient.
Variable NewControllerClient : option ClientConn -> ControllerClient.

(** [type Client struct { csi.IdentityClient; csi.ControllerClient }] *)
Record Client : Type := mkClient {
  Client_IdentityClient : IdentityClient;
  Client_ControllerClient : ControllerClient
}.

(** [func NewClient(conn *grpc.ClientConn) *Client] *)
Definition NewClient (conn : option ClientConn) : Client :=
  mkClient (NewIdentityClient conn) (NewControllerClient conn).

End Client.

Arguments NewClient {ClientConn IdentityClient ControllerClient}.

End lvs.

(** * Proofs about the bootstrap program *)

(** Closes the conjuncts of a case of [run_cases] that has been reached. *)
Ltac settle :=
  repeat split; cbn [result trace fst snd]; eauto; intros;
  try discriminate; try congruence; try lia.

(** ** The run, case by case *)

Lemma fold_append_tags (tags : list string) (opts : list csilvm.ServerOpt) :
  fold_left (fun opts tag => (opts ++ [csilvm.Tag tag])%list) tags opts
  = (opts ++ map csilvm.Tag tags)%list.
Proof.
  revert opts. induction tags as [|t tags IH]; intros opts; simpl.
  - now rewrite app_nil_r.
  - rewrite IH, <- app_assoc. reflexivity.
Qed.

Lemma run_cases (fl : Flags) (w : World) :
  run fl w =
  if conflict fl
  then ([EvCsilvmSetLogger (logger_of fl); EvLvmSetLogger (logger_of fl)],
        inl (fatal_conflict fl))
  else match net_Listen w "unix" (sock_of fl w) with
       | Some e => (to_listen fl w, inl (fatal_listen fl e))
       | None =>
           if (requestLimitF fl <? 1)%Z
           then (to_listen fl w, inl (fatal_request_limit fl))
           else if (128 <? String.length (nodeIDF fl))%nat
           then (to_listen fl w, inl (fatal_node_id fl))
           else match Server_Setup w (server_of fl) with
                | Some e => ((to_listen fl w ++ to_setup fl)%list, inl (fatal_setup fl e))
                | None =>
                    ((to_listen fl w ++ to_setup fl ++ to_serve fl w)%list, inr tt)
                end
       end.
Proof.
  assert (Hsock :
    (if strings.HasPrefix
          (if negb (socketFileEnvF fl =? "") then os_Getenv w (socketFileEnvF fl)
           else socketFileF fl) "unix://"
     then strings.slice_from (String.length "unix://")
            (if negb (socketFileEnvF fl =? "") then os_Getenv w (socketFileEnvF fl)
             else socketFileF fl)
     else if negb (socketFileEnvF fl =? "") then os_Getenv w (socketFileEnvF fl)
          else socketFileF fl) = sock_of fl w).
  { unfold sock_of, resolved. destruct (socketFileEnvF fl =? ""); reflexivity. }
  unfold run. rewrite Hsock. clear Hsock.
  fold (conflict fl). fold (logger_of fl).
  destruct (conflict fl); [reflexivity|].
  unfold net_Listen_call, Setup_call, to_listen.
  cbn [when bind emit ret fst snd app].
  destruct (net_Listen w "unix" (sock_of fl w)) as [e|]; [reflexivity|].
  cbn [when bind emit ret fst snd app log_Fatalf].
  destruct (requestLimitF fl <? 1)%Z; [reflexivity|].
  cbn [when bind emit ret fst snd app log_Fatalf].
  change (defaultMaxStringLen <? String.length (nodeIDF fl))%nat
    with (128 <? String.length (nodeIDF fl))%nat.
  destruct (128 <? String.length (nodeIDF fl))%nat; [reflexivity|].
  cbn [when bind emit ret fst snd app log_Fatalf].
  rewrite fold_append_tags.
  unfold to_setup, to_serve, server_of, opts_of, grpcServer_of.
  destruct (removeF fl); cbn [app];
    match goal with
    | |- context [Server_Setup w ?s] => destruct (Server_Setup w s) as [e|]
    end; reflexivity.
Qed.

(** ** Facts about the string operations *)

Lemma Split_not_nil (s : string) (sep : ascii) : strings.Split s sep <> [].
Proof.
  destruct s as [|c s]; simpl; [discriminate|].
  destruct (Ascii.eqb c sep); [discriminate|].
  destruct (strings.Split s sep); discriminate.
Qed.

Lemma length_Split (s : string) (sep : ascii) :
  List.length (strings.Split s sep) = S (strings.Count s sep).
Proof.
  induction s as [|c s IH]; simpl; [reflexivity|].
  destruct (Ascii.eqb c sep); simpl.
  - now rewrite IH.
  - destruct (strings.Split s sep) as [|seg segs] eqn:E.
    + now destruct (Split_not_nil s sep).
    + simpl in *. exact IH.
Qed.

Lemma Join_Split (s : string) (sep : ascii) :
  strings.Join (strings.Split s sep) (String sep "") = s.
Proof.
  unfold strings.Join.
  induction s as [|c s IH]; simpl; [reflexivity|].
  destruct (Ascii.eqb_spec c sep) as [->|Hne].
  - destruct (strings.Split s sep) as [|seg segs] eqn:E.
    + now destruct (Split_not_nil s sep).
    + simpl in *. now rewrite IH.
  - destruct (strings.Split s sep) as [|seg segs] eqn:E.
    + now destruct (Split_not_nil s sep).
    + destruct segs; simpl in *; now rewrite <- IH.
Qed.

Lemma Split_segments (s : string) (sep : ascii) :
  Forall (fun seg => strings.ContainsByte seg sep = false) (strings.Split s sep).
Proof.
  induction s as [|c s IH]; simpl.
  - now constructor.
  - destruct (Ascii.eqb c sep) eqn:Ec.
    + now constructor.
    + destruct (strings.Split s sep) as [|seg segs].
      * constructor; [simpl; now rewrite Ec | constructor].
      * inversion IH as [|? ? Hseg Hsegs]; subst.
        constructor; [simpl; now rewrite Ec, Hseg | assumption].
Qed.

(** [Split] undoes [Join]: segments without the separator come back as
    they went in, the empty ones included. *)
Lemma Split_Join (l : list string) (sep : ascii) :
  l <> [] ->
  Forall (fun seg => strings.ContainsByte seg sep = false) l ->
  strings.Split (strings.Join l (String sep "")) sep = l.
Proof.
  unfold strings.Join.
  induction l as [|x l IH]; intros Hne Hall; [congruence|].
  inversion Hall as [|? ? Hx Hl]; subst. clear Hne Hall.
  destruct l as [|y l].
  - simpl. clear IH Hl.
    induction x as [|c x IHx]; simpl in *; [reflexivity|].
    apply orb_false_iff in Hx as [Hc Hx].
    rewrite Hc, (IHx Hx). reflexivity.
  - specialize (IH ltac:(discriminate) Hl).
    change (String.concat (String sep "") (x :: y :: l))
      with (x ++ String sep (String.concat (String sep "") (y :: l))).
    induction x as [|c x IHx]; simpl in *.
    + rewrite Ascii.eqb_refl. now rewrite IH.
    + apply orb_false_iff in Hx as [Hc Hx].
      rewrite Hc, (IHx Hx). reflexivity.
Qed.

Lemma HasPrefix_slice (s p : string) :
  strings.HasPrefix s p = true -> s = p ++ strings.slice_from (String.length p) s.
Proof.
  unfold strings.HasPrefix. revert s.
  induction p as [|a p IH]; intros s H; [reflexivity|].
  destruct s as [|b s]; simpl in H; [discriminate|].
  destruct (ascii_dec a b) as [->|]; [|discriminate].
  simpl. now rewrite <- (IH s H).
Qed.

Lemma HasPrefix_app (p t : string) : strings.HasPrefix (p ++ t) p = true.
Proof.
  unfold strings.HasPrefix.
  induction p as [|a p IH]; simpl; [now destruct t|].
  destruct (ascii_dec a a); [assumption|congruence].
Qed.

Lemma slice_from_app (p t : string) : strings.slice_from (String.length p) (p ++ t) = t.
Proof. induction p as [|a p IH]; simpl; [now destruct t|assumption]. Qed.

Lemma eqb_empty_false (s : string) : s <> "" -> (s =? "") = false.
Proof. intros H. now apply String.eqb_neq. Qed.

Lemma conflict_true (fl : Flags) :
  conflict fl = true <-> socketFileF fl <> "" /\ socketFileEnvF fl <> "".
Proof.
  unfold conflict. rewrite andb_true_iff, !negb_true_iff, !String.eqb_neq. tauto.
Qed.

Lemma conflict_false (fl : Flags) :
  conflict fl = false <-> socketFileF fl = "" \/ socketFileEnvF fl = "".
Proof.
  unfold conflict. rewrite andb_false_iff, !negb_false_iff, !String.eqb_eq. tauto.
Qed.

(** ** The properties of the bootstrap program *)

(** C1.  When both [-unix-addr] and [-unix-addr-env] have a non-empty
    value, whatever the two values are, the program ends in [log.Fatalf]
    with the diagnostic of the conflict; up to there it has not called
    [net.Listen] and has built neither the gRPC server nor the
    volume-group server. *)
Theorem conflicting_socket_sources_fatal (fl : Flags) (w : World) :
  socketFileF fl <> "" ->
  socketFileEnvF fl <> "" ->
  result (run fl w)
  = inl (mkFatal log.std "[%s] cannot specify -unix-addr and -unix-addr-env"
           [ArgString (vgnameF fl)])
  /\ listened (trace (run fl w)) = []
  /\ grpc_servers (trace (run fl w)) = []
  /\ servers (trace (run fl w)) = [].
Proof.
  intros Ha He.
  rewrite run_cases.
  rewrite (proj2 (conflict_true fl) (conj Ha He)).
  repeat split.
Qed.

(** C2.  When the request limit is less than 1 (zero or negative), the
    program ends in [log.Fatalf] and has built no server; when the checks
    before it pass (no conflict of socket sources, [net.Listen] succeeds)
    the diagnostic is the one of the request limit, carrying the value. *)
Theorem request_limit_below_one_fatal (fl : Flags) (w : World) :
  (requestLimitF fl < 1)%Z ->
  (exists f, result (run fl w) = inl f)
  /\ grpc_servers (trace (run fl w)) = []
  /\ servers (trace (run fl w)) = []
  /\ (conflict fl = false ->
      net_Listen w "unix" (sock_of fl w) = None ->
      result (run fl w)
      = inl (mkFatal log.std
               "request-limit requires a positive, integer value instead of %d"
               [ArgInt (requestLimitF fl)])).
Proof.
  intros Hlim. apply Z.ltb_lt in Hlim.
  rewrite run_cases.
  destruct (conflict fl).
  - settle.
  - destruct (net_Listen w "unix" (sock_of fl w)) as [e|].
    + settle.
    + rewrite Hlim. settle.
Qed.

(** C3.  A node identifier of more than 128 bytes ends the program in
    [log.Fatalf] with no server built, and with the diagnostic of the node
    identifier when the checks before it pass.  For an identifier of 128
    bytes or fewer the check does not fire: the program never ends with
    that diagnostic, and when the checks before it pass it goes on to
    build both servers, the identifier being passed as the [NodeID]
    option. *)
Theorem node_id_length_check (fl : Flags) (w : World) :
  (128 < String.length (nodeIDF fl) ->
     (exists f, result (run fl w) = inl f)
     /\ grpc_servers (trace (run fl w)) = []
     /\ servers (trace (run fl w)) = []
     /\ (conflict fl = false ->
         net_Listen w "unix" (sock_of fl w) = None ->
         (1 <= requestLimitF fl)%Z ->
         result (run fl w)
         = inl (mkFatal log.std "node-id cannot be longer than %d bytes: %q"
                  [ArgInt 128; ArgString (nodeIDF fl)])))
  /\ (String.length (nodeIDF fl) <= 128 ->
      (forall f, result (run fl w) = inl f ->
         fatal_format f <> "node-id cannot be longer than %d bytes: %q")
      /\ (conflict fl = false ->
          net_Listen w "unix" (sock_of fl w) = None ->
          (1 <= requestLimitF fl)%Z ->
          grpc_servers (trace (run fl w)) = [grpcServer_of fl]
          /\ exists s, servers (trace (run fl w)) = [s]
                       /\ In (csilvm.NodeID (nodeIDF fl)) (csilvm.opts s))).
Proof.
  rewrite run_cases. split.
  - intros Hlen. apply Nat.ltb_lt in Hlen.
    destruct (conflict fl).
    { settle. }
    destruct (net_Listen w "unix" (sock_of fl w)) as [e|].
    { settle. }
    destruct (Z.ltb_spec (requestLimitF fl) 1).
    { settle. }
    rewrite Hlen. settle.
  - intros Hlen. apply Nat.ltb_ge in Hlen. split.
    + intros f.
      destruct (conflict fl); [intros [= <-]; discriminate|].
      destruct (net_Listen w "unix" (sock_of fl w)) as [e|];
        [intros [= <-]; discriminate|].
      destruct (requestLimitF fl <? 1)%Z; [intros [= <-]; discriminate|].
      rewrite Hlen.
      destruct (Server_Setup w (server_of fl)); [intros [= <-]|]; discriminate.
    + intros -> -> Hlim. apply Z.ltb_ge in Hlim. rewrite Hlim, Hlen.
      assert (Hin : In (csilvm.NodeID (nodeIDF fl)) (csilvm.opts (server_of fl)))
        by (simpl; auto).
      destruct (Server_Setup w (server_of fl));
        (split; [reflexivity | exists (server_of fl); split; [reflexivity | exact Hin]]).
Qed.

(** C4.  In a run whose two socket sources do not conflict, [net.Listen]
    is called once, on the network [unix].  The source of the path is the
    value of the environment variable named by [-unix-addr-env] when that
    flag is non-empty (so [-unix-addr] is empty), and the value of
    [-unix-addr] otherwise; the path listened on is the source without its
    leading [unix://] when it has one, and the source itself when it has
    none. *)
Theorem listen_path_resolution (fl : Flags) (w : World) :
  socketFileF fl = "" \/ socketFileEnvF fl = "" ->
  exists src path,
    (socketFileEnvF fl <> "" -> src = os_Getenv w (socketFileEnvF fl))
    /\ (socketFileEnvF fl = "" -> src = socketFileF fl)
    /\ listened (trace (run fl w)) = [("unix", path)]
    /\ (forall rest, src = "unix://" ++ rest -> path = rest)
    /\ (strings.HasPrefix src "unix://" = false -> path = src).
Proof.
  intros Hno. apply conflict_false in Hno.
  exists (resolved fl w), (sock_of fl w).
  unfold resolved at 1 2.
  split; [|split; [|split; [|split]]].
  - intros He. now rewrite (eqb_empty_false _ He).
  - intros ->. reflexivity.
  - rewrite run_cases, Hno.
    destruct (net_Listen w "unix" (sock_of fl w)) as [e|]; [reflexivity|].
    destruct (requestLimitF fl <? 1)%Z; [reflexivity|].
    destruct (128 <? String.length (nodeIDF fl))%nat; [reflexivity|].
    destruct (Server_Setup w (server_of fl)); reflexivity.
  - intros rest Hsrc. unfold sock_of. rewrite Hsrc.
    rewrite (HasPrefix_app "unix://" rest).
    exact (slice_from_app "unix://" rest).
  - intros Hpre. unfold sock_of. now rewrite Hpre.
Qed.

(** C5.  The gRPC server is built with one option, the unary
    interceptor, and that interceptor is the chain of three: the
    request-limit interceptor on the configured limit, the serializing
    interceptor, the logging interceptor, in this order.  A run builds the
    gRPC server when it passes the four checks before it, never more than
    once, and registers the three services and serves on that server. *)
Theorem interceptor_chain (fl : Flags) (w : World) :
  let chain :=
    grpc.ChainUnaryServer
      [grpc.RequestLimitInterceptor (requestLimitF fl);
       grpc.SerializingInterceptor;
       grpc.LoggingInterceptor] in
  let g := grpc.NewServer [grpc.UnaryInterceptor chain] in
  grpc_servers (trace (run fl w))
  = (if conflict fl then []
     else match net_Listen w "unix" (sock_of fl w) with
          | Some _ => []
          | None =>
              if (requestLimitF fl <? 1)%Z then []
              else if (128 <? String.length (nodeIDF fl))%nat then []
              else [g]
          end)
  /\ (forall g', In (EvGrpcNewServer g') (trace (run fl w)) -> g' = g)
  /\ (forall g' srv,
        In (EvRegisterIdentityServer g' srv) (trace (run fl w))
        \/ In (EvRegisterControllerServer g' srv) (trace (run fl w))
        \/ In (EvRegisterNodeServer g' srv) (trace (run fl w)) -> g' = g)
  /\ (forall g' lis, In (EvServe g' lis) (trace (run fl w)) -> g' = g).
Proof.
  intros chain g. rewrite run_cases.
  assert (Hall : forall tr : list Event,
            incl tr (to_listen fl w ++ to_setup fl ++ to_serve fl w)%list ->
            (forall g', In (EvGrpcNewServer g') tr -> g' = g)
            /\ (forall g' srv,
                  In (EvRegisterIdentityServer g' srv) tr
                  \/ In (EvRegisterControllerServer g' srv) tr
                  \/ In (EvRegisterNodeServer g' srv) tr -> g' = g)
            /\ (forall g' lis, In (EvServe g' lis) tr -> g' = g)).
  { intros tr Hincl. repeat split.
    - intros g' H. apply Hincl in H. simpl in H.
      repeat (destruct H as [H|H]; [try discriminate; now inversion H|]).
      contradiction.
    - intros g' srv [H|[H|H]]; apply Hincl in H; simpl in H;
        repeat (destruct H as [H|H]; [try discriminate; now inversion H|]);
        contradiction.
    - intros g' lis H. apply Hincl in H. simpl in H.
      repeat (destruct H as [H|H]; [try discriminate; now inversion H|]).
      contradiction. }
  assert (Hl : incl (to_listen fl w) (to_listen fl w ++ to_setup fl ++ to_serve fl w)%list)
    by (apply incl_appl, incl_refl).
  assert (Hs : incl (to_listen fl w ++ to_setup fl)
                 (to_listen fl w ++ to_setup fl ++ to_serve fl w)%list).
  { apply incl_app; [exact Hl|]. apply incl_appr, incl_appl, incl_refl. }
  assert (H2 : incl [EvCsilvmSetLogger (logger_of fl); EvLvmSetLogger (logger_of fl)]
                 (to_listen fl w ++ to_setup fl ++ to_serve fl w)%list).
  { intros e [<-|[<-|[]]]; simpl; auto. }
  destruct (conflict fl).
  { split; [reflexivity | exact (Hall _ H2)]. }
  destruct (net_Listen w "unix" (sock_of fl w)) as [e|].
  { split; [reflexivity | exact (Hall _ Hl)]. }
  destruct (requestLimitF fl <? 1)%Z.
  { split; [reflexivity | exact (Hall _ Hl)]. }
  destruct (128 <? String.length (nodeIDF fl))%nat.
  { split; [reflexivity | exact (Hall _ Hl)]. }
  destruct (Server_Setup w (server_of fl)).
  { split; [reflexivity | exact (Hall _ Hs)]. }
  split; [reflexivity | exact (Hall _ (incl_refl _))].
Qed.

(** *** The server and its options *)

Lemma servers_run (fl : Flags) (w : World) :
  servers (trace (run fl w)) = if passes fl w then [server_of fl] else [].
Proof.
  rewrite run_cases. unfold passes.
  destruct (conflict fl); [reflexivity|].
  destruct (net_Listen w "unix" (sock_of fl w)); [reflexivity|].
  destruct (requestLimitF fl <? 1)%Z; [reflexivity|].
  destruct (128 <? String.length (nodeIDF fl))%nat; [reflexivity|].
  destruct (Server_Setup w (server_of fl)); reflexivity.
Qed.

Lemma servers_run_In (fl : Flags) (w : World) (s : csilvm.Server) :
  In s (servers (trace (run fl w))) -> s = server_of fl.
Proof.
  rewrite servers_run. destruct (passes fl w); simpl; [|tauto].
  intros [H|[]]. now symmetry.
Qed.

Lemma stringsFlag_Set_ok (f : stringsFlag) (tag : string) :
  snd (Value_Set f tag) = None.
Proof. reflexivity. Qed.

Lemma fold_flag_set_tags (args : list FlagArg) (fl : Flags) :
  tagsF (fold_left flag_set args fl) = (tagsF fl ++ tag_values args)%list.
Proof.
  revert fl. induction args as [|a args IH]; intros fl; simpl.
  - now rewrite app_nil_r.
  - rewrite IH. destruct a; simpl; try reflexivity.
    now rewrite <- app_assoc.
Qed.

Lemma fold_flag_set_probe_modules (args : list FlagArg) (fl : Flags) :
  probeModulesF (fold_left flag_set args fl)
  = (probeModulesF fl ++ probe_module_values args)%list.
Proof.
  revert fl. induction args as [|a args IH]; intros fl; simpl.
  - now rewrite app_nil_r.
  - rewrite IH. destruct a; simpl; try reflexivity.
    now rewrite <- app_assoc.
Qed.

Lemma fold_flag_set_map_tag (tags : list string) (fl : Flags) :
  fold_left flag_set (map tag tags) fl
  = mkFlags (requestLimitF fl) (vgnameF fl) (pvnamesF fl) (defaultFsF fl)
      (defaultVolumeSizeF fl) (socketFileF fl) (socketFileEnvF fl) (removeF fl)
      (tagsF fl ++ tags)%list (probeModulesF fl) (nodeIDF fl).
Proof.
  revert fl. induction tags as [|t tags IH]; intros fl; simpl.
  - rewrite app_nil_r. now destruct fl.
  - rewrite IH. simpl. now rewrite <- app_assoc.
Qed.

Lemma fold_flag_set_map_probe_module (modules : list string) (fl : Flags) :
  fold_left flag_set (map probe_module modules) fl
  = mkFlags (requestLimitF fl) (vgnameF fl) (pvnamesF fl) (defaultFsF fl)
      (defaultVolumeSizeF fl) (socketFileF fl) (socketFileEnvF fl) (removeF fl)
      (tagsF fl) (probeModulesF fl ++ modules)%list (nodeIDF fl).
Proof.
  revert fl. induction modules as [|m modules IH]; intros fl; simpl.
  - rewrite app_nil_r. now destruct fl.
  - rewrite IH. simpl. now rewrite <- app_assoc.
Qed.

(** Every state of the flag variables is the result of some command
    line, so what holds of [run] on all of them is about the runs of
    [main] and no others. *)
Lemma flag_Parse_onto (fl : Flags) : exists args, flag_Parse args = fl.
Proof.
  exists ([request_limit (requestLimitF fl); volume_group (vgnameF fl);
           devices (pvnamesF fl); default_fs (defaultFsF fl);
           default_volume_size (defaultVolumeSizeF fl);
           unix_addr (socketFileF fl); unix_addr_env (socketFileEnvF fl);
           remove_volume_group (removeF fl); node_id (nodeIDF fl)]
          ++ map tag (tagsF fl) ++ map probe_module (probeModulesF fl))%list.
  unfold flag_Parse. rewrite !fold_left_app.
  rewrite fold_flag_set_map_probe_module, fold_flag_set_map_tag.
  now destruct fl.
Qed.

Lemma tag_opts_map (tags : list string) : tag_opts (map csilvm.Tag tags) = tags.
Proof. induction tags as [|t tags IH]; simpl; [|rewrite IH]; reflexivity. Qed.

Lemma probe_opts_map (tags : list string) : probe_opts (map csilvm.Tag tags) = [].
Proof. induction tags as [|t tags IH]; simpl; [|rewrite IH]; reflexivity. Qed.

Lemma tag_opts_of (fl : Flags) : tag_opts (opts_of fl) = tagsF fl.
Proof.
  unfold opts_of, tag_opts. rewrite !flat_map_app. fold tag_opts.
  rewrite tag_opts_map. now destruct (removeF fl).
Qed.

Lemma probe_opts_of (fl : Flags) : probe_opts (opts_of fl) = [probeModulesF fl].
Proof.
  unfold opts_of, probe_opts. rewrite !flat_map_app. fold probe_opts.
  rewrite probe_opts_map. now destruct (removeF fl).
Qed.

(** C6.  The two repeatable flags accumulate their values in
    command-line order, and a server that is built gets the options
    [NodeID], [DefaultVolumeSize], [ProbeModules] on the accumulated module
    list, [RemoveVolumeGroup] if the flag is set, then one [Tag] option per
    accumulated tag, in the order of the command line.  A run that passes
    the four checks builds exactly one server. *)
Theorem repeated_flags_in_order (args : list FlagArg) (w : World) :
  tagsF (flag_Parse args) = tag_values args
  /\ probeModulesF (flag_Parse args) = probe_module_values args
  /\ (forall s, In s (servers (trace (main args w))) ->
        tag_opts (csilvm.opts s) = tag_values args
        /\ probe_opts (csilvm.opts s) = [probe_module_values args]
        /\ csilvm.opts s
           = ([csilvm.NodeID (nodeIDF (flag_Parse args));
               csilvm.DefaultVolumeSize (defaultVolumeSizeF (flag_Parse args));
               csilvm.ProbeModules (probe_module_values args)]
              ++ (if removeF (flag_Parse args) then [csilvm.RemoveVolumeGroup] else [])
              ++ map csilvm.Tag (tag_values args))%list)
  /\ (passes (flag_Parse args) w = true ->
      exists s, servers (trace (main args w)) = [s]).
Proof.
  assert (Ht : tagsF (flag_Parse args) = tag_values args)
    by (unfold flag_Parse; now rewrite fold_flag_set_tags).
  assert (Hp : probeModulesF (flag_Parse args) = probe_module_values args)
    by (unfold flag_Parse; now rewrite fold_flag_set_probe_modules).
  split; [exact Ht|]. split; [exact Hp|]. unfold main. split.
  - intros s Hs. apply servers_run_In in Hs. subst s.
    cbn [csilvm.opts server_of].
    rewrite tag_opts_of, probe_opts_of, Ht, Hp.
    repeat split. unfold opts_of. now rewrite Ht, Hp.
  - intros Hpass. rewrite servers_run, Hpass. eauto.
Qed.

Lemma fold_flag_set_default_fs (args : list FlagArg) (fl : Flags) :
  given_default_fs args = false ->
  defaultFsF (fold_left flag_set args fl) = defaultFsF fl.
Proof.
  revert fl. induction args as [|a args IH]; intros fl H; simpl in *; [reflexivity|].
  apply orb_false_iff in H as [Ha H]. rewrite (IH _ H).
  destruct a; try reflexivity; discriminate.
Qed.

Lemma fold_flag_set_default_volume_size (args : list FlagArg) (fl : Flags) :
  given_default_volume_size args = false ->
  defaultVolumeSizeF (fold_left flag_set args fl) = defaultVolumeSizeF fl.
Proof.
  revert fl. induction args as [|a args IH]; intros fl H; simpl in *; [reflexivity|].
  apply orb_false_iff in H as [Ha H]. rewrite (IH _ H).
  destruct a; try reflexivity; discriminate.
Qed.

Lemma fold_flag_set_devices (args : list FlagArg) (fl : Flags) :
  given_devices args = false ->
  pvnamesF (fold_left flag_set args fl) = pvnamesF fl.
Proof.
  revert fl. induction args as [|a args IH]; intros fl H; simpl in *; [reflexivity|].
  apply orb_false_iff in H as [Ha H]. rewrite (IH _ H).
  destruct a; try reflexivity; discriminate.
Qed.

Lemma In_opts_of_size (fl : Flags) (n : Z) :
  In (csilvm.DefaultVolumeSize n) (opts_of fl) <-> n = defaultVolumeSizeF fl.
Proof.
  unfold opts_of. split.
  - intros H. apply in_app_or in H as [H|H].
    + simpl in H. destruct H as [H|[H|[H|[]]]]; try discriminate. now inversion H.
    + apply in_app_or in H as [H|H].
      * destruct (removeF fl); simpl in H; [destruct H as [H|[]]; discriminate | tauto].
      * apply in_map_iff in H as (t & Ht & _). discriminate.
  - intros ->. simpl. auto.
Qed.

(** C7.  The declared default of the volume size is [10 << 30], which is
    10737418240 = 10 * 2^30.  On a command line without [-default-fs], a
    server that is built has the default filesystem [xfs]; on a command
    line without [-default-volume-size], its one [DefaultVolumeSize] option
    is 10737418240. *)
Theorem defaults_of_fs_and_volume_size (args : list FlagArg) (w : World) :
  defaultDefaultVolumeSize = 10737418240%Z
  /\ (10737418240 = 10 * 2 ^ 30)%Z
  /\ (forall s, In s (servers (trace (main args w))) ->
        (given_default_fs args = false -> csilvm.defaultFs s = "xfs")
        /\ (given_default_volume_size args = false ->
            forall n, In (csilvm.DefaultVolumeSize n) (csilvm.opts s)
                      <-> n = 10737418240%Z))
  /\ (passes (flag_Parse args) w = true ->
      exists s, servers (trace (main args w)) = [s]).
Proof.
  split; [reflexivity|]. split; [reflexivity|]. unfold main. split.
  - intros s Hs. apply servers_run_In in Hs. subst s.
    cbn [csilvm.defaultFs csilvm.opts server_of]. split.
    + intros H. unfold flag_Parse. now rewrite fold_flag_set_default_fs.
    + intros H n. rewrite In_opts_of_size. unfold flag_Parse.
      rewrite fold_flag_set_default_volume_size by assumption. reflexivity.
  - intros Hpass. rewrite servers_run, Hpass. eauto.
Qed.

(** C10.  A server that is built gets, as its device list, the value of
    [-devices] split at every comma: one more segment than there are
    commas, no comma left in a segment, the segments joined by commas give
    the value back, and a value made by joining segments gives exactly
    those segments, the empty ones included.  The list is never empty; on a
    command line without [-devices] (the default, the empty string) it is
    the one-element list of the empty string. *)
Theorem devices_split_on_commas (args : list FlagArg) (w : World) :
  (forall s, In s (servers (trace (main args w))) ->
     let d := pvnamesF (flag_Parse args) in
     csilvm.pvnames s = strings.Split d ","
     /\ csilvm.pvnames s <> []
     /\ List.length (csilvm.pvnames s) = S (strings.Count d ",")
     /\ strings.Join (csilvm.pvnames s) "," = d
     /\ Forall (fun seg => strings.ContainsByte seg "," = false) (csilvm.pvnames s)
     /\ (forall l, l <> [] ->
           Forall (fun seg => strings.ContainsByte seg "," = false) l ->
           d = strings.Join l "," -> csilvm.pvnames s = l)
     /\ (given_devices args = false -> csilvm.pvnames s = [""]))
  /\ (passes (flag_Parse args) w = true ->
      exists s, servers (trace (main args w)) = [s]).
Proof.
  unfold main. split.
  - intros s Hs. cbv zeta. apply servers_run_In in Hs. subst s.
    cbn [csilvm.pvnames server_of].
    split; [reflexivity|].
    split; [apply Split_not_nil|].
    split; [apply length_Split|].
    split; [apply Join_Split|].
    split; [apply Split_segments|].
    split; [intros l Hne Hall ->; now apply Split_Join|].
    intros H. unfold flag_Parse. now rewrite fold_flag_set_devices.
  - intros Hpass. rewrite servers_run, Hpass. eauto.
Qed.

(** *** The diagnostics of the configuration errors *)

(** C8.  Every diagnostic of a configuration error should name the
    volume group and the offending value.  The diagnostics of the request
    limit and of the node identifier do not: on the command lines
    [-volume-group vg0 -unix-addr /tmp/t.sock -request-limit 0] and
    [-volume-group vg0 -unix-addr /tmp/t.sock -node-id] with 129 bytes the
    run ends in [log.Fatalf] with the offending value as operand and the
    volume group neither among the operands nor in the prefix of the
    logger.  The three other calls of [log.Fatalf] in [main] (conflict of
    socket sources, failure of [net.Listen], failure of [Setup]) do name
    the volume group, on the same [vg0]. *)
Theorem request_limit_and_node_id_diagnostics_omit_volume_group :
  (exists f, result (main args_limit_0 quiet) = inl f
             /\ f = mkFatal log.std
                      "request-limit requires a positive, integer value instead of %d"
                      [ArgInt 0]
             /\ ~ names_volume_group (flag_Parse args_limit_0) f)
  /\ (exists f, result (main (args_node_id 129) quiet) = inl f
                /\ f = mkFatal log.std "node-id cannot be longer than %d bytes: %q"
                         [ArgInt 128; ArgString (bytes 129)]
                /\ ~ names_volume_group (flag_Parse (args_node_id 129)) f)
  /\ (exists f, result (main args_both_sources quiet) = inl f
                /\ fatal_format f = "[%s] cannot specify -unix-addr and -unix-addr-env"
                /\ names_volume_group (flag_Parse args_both_sources) f)
  /\ (exists f, result (main args_plain listen_fails) = inl f
                /\ fatal_format f = "[%s] Failed to listen: %v"
                /\ names_volume_group (flag_Parse args_plain) f)
  /\ (exists f, result (main args_plain setup_fails) = inl f
                /\ fatal_format f = "[%s] error initializing csilvm plugin: err=%v"
                /\ names_volume_group (flag_Parse args_plain) f).
Proof.
  split; [|split; [|split; [|split]]].
  - eexists. split; [vm_compute; reflexivity|]. split; [reflexivity|].
    unfold names_volume_group. simpl. intros [[H|[]]|H]; discriminate H.
  - eexists. split; [vm_compute; reflexivity|]. split; [reflexivity|].
    unfold names_volume_group. simpl. intros [[H|[H|[]]]|H]; discriminate H.
  - eexists. split; [vm_compute; reflexivity|]. split; [reflexivity|].
    left. simpl. auto.
  - eexists. split; [vm_compute; reflexivity|]. split; [reflexivity|].
    left. simpl. auto.
  - eexists. split; [vm_compute; reflexivity|]. split; [reflexivity|].
    left. simpl. auto.
Qed.

(** ** The properties at concrete inputs *)

(** [-unix-addr /tmp/t.sock -unix-addr-env SOCK]: fatal, nothing listened
    on, nothing built. *)
Lemma conflicting_socket_sources_fatal_at_both :
  (socketFileF (flag_Parse args_both_sources) <> ""
   /\ socketFileEnvF (flag_Parse args_both_sources) <> "")
  /\ result (main args_both_sources quiet)
     = inl (mkFatal log.std "[%s] cannot specify -unix-addr and -unix-addr-env"
              [ArgString "vg0"])
  /\ listened (trace (main args_both_sources quiet)) = []
  /\ grpc_servers (trace (main args_both_sources quiet)) = []
  /\ servers (trace (main args_both_sources quiet)) = [].
Proof.
  assert (Ha : socketFileF (flag_Parse args_both_sources) <> "")
    by (intros H; vm_compute in H; discriminate H).
  assert (He : socketFileEnvF (flag_Parse args_both_sources) <> "")
    by (intros H; vm_compute in H; discriminate H).
  split; [exact (conj Ha He)|].
  exact (conflicting_socket_sources_fatal (flag_Parse args_both_sources) quiet Ha He).
Defined.

(** [-request-limit 0] with a usable socket: the diagnostic of the
    request limit, no server. *)
Lemma request_limit_below_one_fatal_at_0 :
  (requestLimitF (flag_Parse args_limit_0) < 1)%Z
  /\ servers (trace (main args_limit_0 quiet)) = []
  /\ result (main args_limit_0 quiet)
     = inl (mkFatal log.std
              "request-limit requires a positive, integer value instead of %d"
              [ArgInt 0]).
Proof.
  assert (Hlim : (requestLimitF (flag_Parse args_limit_0) < 1)%Z) by reflexivity.
  destruct (request_limit_below_one_fatal (flag_Parse args_limit_0) quiet Hlim)
    as (_ & _ & Hs & Hf).
  split; [exact Hlim|]. split; [exact Hs|]. exact (Hf eq_refl eq_refl).
Defined.

(** A node identifier of 129 bytes is fatal; one of 128 bytes is passed
    to the server. *)
Lemma node_id_length_check_at_129_and_128 :
  (128 < String.length (nodeIDF (flag_Parse (args_node_id 129)))
   /\ result (main (args_node_id 129) quiet)
      = inl (mkFatal log.std "node-id cannot be longer than %d bytes: %q"
               [ArgInt 128; ArgString (bytes 129)]))
  /\ (String.length (nodeIDF (flag_Parse (args_node_id 128))) <= 128
      /\ exists s, servers (trace (main (args_node_id 128) quiet)) = [s]
                   /\ In (csilvm.NodeID (bytes 128)) (csilvm.opts s)).
Proof.
  assert (H129 : 128 < String.length (nodeIDF (flag_Parse (args_node_id 129))))
    by (vm_compute; apply le_n).
  assert (H128 : String.length (nodeIDF (flag_Parse (args_node_id 128))) <= 128)
    by (vm_compute; apply le_n).
  split.
  - split; [exact H129|].
    destruct (proj1 (node_id_length_check (flag_Parse (args_node_id 129)) quiet) H129)
      as (_ & _ & _ & Hf).
    apply Hf; reflexivity || (intros H; discriminate H).
  - split; [exact H128|].
    destruct (proj2 (node_id_length_check (flag_Parse (args_node_id 128)) quiet) H128)
      as (_ & Hgo).
    destruct Hgo as (_ & Hs); [reflexivity | reflexivity | intros H; discriminate H |].
    exact Hs.
Defined.

(** [-unix-addr-env SOCK] with [SOCK=unix:///tmp/x.sock]: the program
    listens on [/tmp/x.sock]. *)
Lemma listen_path_resolution_at_SOCK :
  (socketFileF (flag_Parse args_env) = "" \/ socketFileEnvF (flag_Parse args_env) = "")
  /\ listened (trace (main args_env with_SOCK)) = [("unix", "/tmp/x.sock")].
Proof.
  assert (Hno : socketFileF (flag_Parse args_env) = ""
                \/ socketFileEnvF (flag_Parse args_env) = "")
    by (left; reflexivity).
  split; [exact Hno|].
  destruct (listen_path_resolution (flag_Parse args_env) with_SOCK Hno)
    as (src & path & He & _ & Hl & Hstrip & _).
  unfold main. rewrite Hl.
  rewrite (Hstrip "/tmp/x.sock" (He ltac:(intros H; vm_compute in H; discriminate H))).
  reflexivity.
Defined.

(** The default command line: one gRPC server, with the chain on the
    default limit of 10. *)
Lemma interceptor_chain_at_plain :
  grpc_servers (trace (main args_plain quiet))
  = [grpc.NewServer
       [grpc.UnaryInterceptor
          (grpc.ChainUnaryServer
             [grpc.RequestLimitInterceptor 10;
              grpc.SerializingInterceptor;
              grpc.LoggingInterceptor])]].
Proof. exact (proj1 (interceptor_chain (flag_Parse args_plain) quiet)). Defined.

(** [-tag a -probe-module m1 -tag b -probe-module m2 -tag c]: the tag
    options are a, b, c and the module list is m1, m2. *)
Lemma repeated_flags_in_order_at_abc :
  tagsF (flag_Parse args_repeated) = ["a"; "b"; "c"]
  /\ probeModulesF (flag_Parse args_repeated) = ["m1"; "m2"]
  /\ exists s, servers (trace (main args_repeated quiet)) = [s]
               /\ tag_opts (csilvm.opts s) = ["a"; "b"; "c"]
               /\ probe_opts (csilvm.opts s) = [["m1"; "m2"]].
Proof.
  destruct (repeated_flags_in_order args_repeated quiet) as (Ht & Hp & Hs & Hex).
  destruct (Hex eq_refl) as (s & E).
  split; [exact Ht|]. split; [exact Hp|].
  exists s. split; [exact E|].
  assert (Hin : In s (servers (trace (main args_repeated quiet))))
    by (rewrite E; left; reflexivity).
  destruct (Hs s Hin) as (Htag & Hprobe & _).
  split; [exact Htag | exact Hprobe].
Defined.

(** No [-default-fs], no [-default-volume-size]: [xfs] and 10737418240. *)
Lemma defaults_of_fs_and_volume_size_at_plain :
  exists s, servers (trace (main args_plain quiet)) = [s]
            /\ csilvm.defaultFs s = "xfs"
            /\ In (csilvm.DefaultVolumeSize 10737418240) (csilvm.opts s).
Proof.
  destruct (defaults_of_fs_and_volume_size args_plain quiet) as (_ & _ & Hs & Hex).
  destruct (Hex eq_refl) as (s & E).
  exists s. split; [exact E|].
  assert (Hin : In s (servers (trace (main args_plain quiet))))
    by (rewrite E; left; reflexivity).
  destruct (Hs s Hin) as (Hfs & Hsize).
  split; [exact (Hfs eq_refl) | exact (proj2 (Hsize eq_refl _) eq_refl)].
Defined.

(** [-devices /dev/sda,,/dev/sdb,] gives four segments, two of them
    empty; without [-devices] the list is the empty string alone. *)
Lemma devices_split_on_commas_at_examples :
  (exists s, servers (trace (main args_devices quiet)) = [s]
             /\ csilvm.pvnames s = ["/dev/sda"; ""; "/dev/sdb"; ""])
  /\ (exists s, servers (trace (main args_no_devices quiet)) = [s]
                /\ csilvm.pvnames s = [""]).
Proof.
  split.
  - destruct (devices_split_on_commas args_devices quiet) as (Hs & Hex).
    destruct (Hex eq_refl) as (s & E).
    exists s. split; [exact E|].
    assert (Hin : In s (servers (trace (main args_devices quiet))))
      by (rewrite E; left; reflexivity).
    exact (proj1 (Hs s Hin)).
  - destruct (devices_split_on_commas args_no_devices quiet) as (Hs & Hex).
    destruct (Hex eq_refl) as (s & E).
    exists s. split; [exact E|].
    assert (Hin : In s (servers (trace (main args_no_devices quiet))))
      by (rewrite E; left; reflexivity).
    destruct (Hs s Hin) as (_ & _ & _ & _ & _ & _ & Hdef).
    exact (Hdef eq_refl).
Defined.

(** * Further properties of the bootstrap program *)

Lemma passes_true (fl : Flags) (w : World) :
  passes fl w = true <->
  conflict fl = false
  /\ net_Listen w "unix" (sock_of fl w) = None
  /\ (requestLimitF fl <? 1)%Z = false
  /\ (128 <? String.length (nodeIDF fl))%nat = false.
Proof.
  unfold passes.
  destruct (conflict fl), (net_Listen w "unix" (sock_of fl w)),
    (requestLimitF fl <? 1)%Z, (128 <? String.length (nodeIDF fl))%nat;
    simpl; split; try discriminate; intuition discriminate.
Qed.

(** X1.  Whatever becomes of a run, it begins by handing one logger to
    [csilvm.SetLogger] and then to [lvm.SetLogger], and hands over no
    other: the logger writes to standard error, its prefix is the volume
    group between brackets, and its flags are date, time and short file
    name (19). *)
Theorem loggers_installed_first (fl : Flags) (w : World) :
  let l := log.New log.Stderr ("[" ++ vgnameF fl ++ "]") 19 in
  (exists rest,
     trace (run fl w) = EvCsilvmSetLogger l :: EvLvmSetLogger l :: rest
     /\ loggers rest = [])
  /\ log.flags l = Z.lor (Z.lor log.Ldate log.Ltime) log.Lshortfile.
Proof.
  cbv zeta. split; [|reflexivity].
  rewrite run_cases. fold (logger_of fl).
  destruct (conflict fl); [eexists; split; reflexivity|].
  destruct (net_Listen w "unix" (sock_of fl w)); [eexists; split; reflexivity|].
  destruct (requestLimitF fl <? 1)%Z; [eexists; split; reflexivity|].
  destruct (128 <? String.length (nodeIDF fl))%nat; [eexists; split; reflexivity|].
  destruct (Server_Setup w (server_of fl)); eexists; split; reflexivity.
Qed.

(** X2.  When the socket sources do not conflict and [net.Listen] fails,
    the run ends in [log.Fatalf] with the volume group and the error of
    [net.Listen] as operands, whatever the request limit and the node
    identifier are; neither server has been built and [Setup] has not been
    called. *)
Theorem listen_failure_fatal (fl : Flags) (w : World) (e : error) :
  socketFileF fl = "" \/ socketFileEnvF fl = "" ->
  net_Listen w "unix" (sock_of fl w) = Some e ->
  result (run fl w)
  = inl (mkFatal log.std "[%s] Failed to listen: %v"
           [ArgString (vgnameF fl); ArgError e])
  /\ listened (trace (run fl w)) = [("unix", sock_of fl w)]
  /\ grpc_servers (trace (run fl w)) = []
  /\ servers (trace (run fl w)) = []
  /\ setups (trace (run fl w)) = [].
Proof.
  intros Hno He. apply conflict_false in Hno.
  rewrite run_cases, Hno, He. repeat split.
Qed.

(** X3.  When the four checks pass and [Setup] fails on the server that
    was built, the run ends in [log.Fatalf] with the volume group and the
    error of [Setup] as operands.  [Setup] has been called once, on that
    server; no service has been registered and [Serve] has not been
    called. *)
Theorem setup_failure_fatal (fl : Flags) (w : World) (e : error) :
  passes fl w = true ->
  Server_Setup w (server_of fl) = Some e ->
  result (run fl w)
  = inl (mkFatal log.std "[%s] error initializing csilvm plugin: err=%v"
           [ArgString (vgnameF fl); ArgError e])
  /\ servers (trace (run fl w)) = [server_of fl]
  /\ setups (trace (run fl w)) = [server_of fl]
  /\ registrations (trace (run fl w)) = []
  /\ served (trace (run fl w)) = [].
Proof.
  intros Hp He. apply passes_true in Hp as (Hc & Hl & Hlim & Hlen).
  rewrite run_cases, Hc, Hl, Hlim, Hlen, He. repeat split.
Qed.

(** X4.  When the four checks pass and [Setup] succeeds, the run goes to
    its end: after [Setup] on the one server built it registers the
    identity, the controller and the node service, in this order and with
    nothing in between, each on the one gRPC server and each wrapping that
    server, the controller and node adapters with the server's own
    removal flag and filesystems; the last call is [Serve], on the
    listener [net.Listen] returned. *)
Theorem serving_run (fl : Flags) (w : World) :
  passes fl w = true ->
  Server_Setup w (server_of fl) = None ->
  let g := grpcServer_of fl in
  let s := server_of fl in
  let removing := Server_RemovingVolumeGroup w s in
  let fs := Server_SupportedFilesystems w s in
  let lis := Some (mkListener "unix" (sock_of fl w)) in
  result (run fl w) = inr tt
  /\ listened (trace (run fl w)) = [("unix", sock_of fl w)]
  /\ grpc_servers (trace (run fl w)) = [g]
  /\ servers (trace (run fl w)) = [s]
  /\ served (trace (run fl w)) = [(g, lis)]
  /\ exists before,
       trace (run fl w)
       = (before ++
          [EvSetup s;
           EvRegisterIdentityServer g (IdentityServerValidator s);
           EvRegisterControllerServer g (ControllerServerValidator s removing fs);
           EvRegisterNodeServer g (NodeServerValidator s removing fs);
           EvServe g lis])%list
       /\ setups before = [] /\ registrations before = [] /\ served before = [].
Proof.
  intros Hp He. apply passes_true in Hp as (Hc & Hl & Hlim & Hlen).
  cbv zeta. rewrite run_cases, Hc, Hl, Hlim, Hlen, He.
  repeat split.
  exists (to_listen fl w ++ [EvGrpcNewServer (grpcServer_of fl);
                             EvNewServer (server_of fl)])%list.
  repeat split.
Qed.

(** X5.  A run reaches [Serve], and then returns, exactly when the
    socket sources do not conflict, [net.Listen] succeeds, the request
    limit is at least 1, the node identifier has at most 128 bytes and
    [Setup] succeeds; in every other case it ends in [log.Fatalf] and
    [Serve] is not called. *)
Theorem serves_exactly_when_all_pass (fl : Flags) (w : World) :
  (result (run fl w) = inr tt
   <-> ((socketFileF fl = "" \/ socketFileEnvF fl = "")
        /\ net_Listen w "unix" (sock_of fl w) = None
        /\ (1 <= requestLimitF fl)%Z
        /\ String.length (nodeIDF fl) <= 128
        /\ Server_Setup w (server_of fl) = None))
  /\ (served (trace (run fl w)) <> [] <-> result (run fl w) = inr tt)
  /\ (result (run fl w) <> inr tt -> exists f, result (run fl w) = inl f).
Proof.
  rewrite <- conflict_false, <- Z.ltb_ge, <- Nat.ltb_ge.
  rewrite run_cases.
  destruct (conflict fl).
  { settle; intuition congruence. }
  destruct (net_Listen w "unix" (sock_of fl w)).
  { settle; intuition congruence. }
  destruct (requestLimitF fl <? 1)%Z.
  { settle; intuition congruence. }
  destruct (128 <? String.length (nodeIDF fl))%nat.
  { settle; intuition congruence. }
  destruct (Server_Setup w (server_of fl)).
  { settle; intuition congruence. }
  settle; intuition congruence.
Qed.

(** X6.  A fatal exit of a run is one of five, each under its own
    condition and found in this order: the conflict of socket sources, the
    failure of [net.Listen], the request limit below 1, the node identifier
    over 128 bytes, the failure of [Setup].  The run has no other way to
    end in [log.Fatalf]. *)
Theorem fatal_exits (fl : Flags) (w : World) (f : Fatal) :
  result (run fl w) = inl f ->
  (socketFileF fl <> "" /\ socketFileEnvF fl <> ""
   /\ f = mkFatal log.std "[%s] cannot specify -unix-addr and -unix-addr-env"
            [ArgString (vgnameF fl)])
  \/ (exists e, conflict fl = false
                /\ net_Listen w "unix" (sock_of fl w) = Some e
                /\ f = mkFatal log.std "[%s] Failed to listen: %v"
                         [ArgString (vgnameF fl); ArgError e])
  \/ (passes fl w = false /\ conflict fl = false
      /\ net_Listen w "unix" (sock_of fl w) = None
      /\ (requestLimitF fl < 1)%Z
      /\ f = mkFatal log.std
               "request-limit requires a positive, integer value instead of %d"
               [ArgInt (requestLimitF fl)])
  \/ (passes fl w = false /\ conflict fl = false
      /\ net_Listen w "unix" (sock_of fl w) = None
      /\ (1 <= requestLimitF fl)%Z
      /\ 128 < String.length (nodeIDF fl)
      /\ f = mkFatal log.std "node-id cannot be longer than %d bytes: %q"
               [ArgInt 128; ArgString (nodeIDF fl)])
  \/ (exists e, passes fl w = true
                /\ Server_Setup w (server_of fl) = Some e
                /\ f = mkFatal log.std "[%s] error initializing csilvm plugin: err=%v"
                         [ArgString (vgnameF fl); ArgError e]).
Proof.
  rewrite run_cases. unfold passes.
  destruct (conflict fl) eqn:Hc.
  { intros [= <-]. left. apply conflict_true in Hc as [Ha He].
    repeat split; assumption. }
  destruct (net_Listen w "unix" (sock_of fl w)) as [e|] eqn:Hl.
  { intros [= <-]. right; left. exists e. repeat split. }
  destruct (Z.ltb_spec (requestLimitF fl) 1) as [Hlim|Hlim].
  { intros [= <-]. right; right; left. repeat split. assumption. }
  destruct (Nat.ltb_spec 128 (String.length (nodeIDF fl))) as [Hlen|Hlen].
  { intros [= <-]. right; right; right; left. repeat split; assumption. }
  destruct (Server_Setup w (server_of fl)) as [e|] eqn:Hs.
  { intros [= <-]. right; right; right; right. exists e. repeat split. }
  discriminate.
Qed.

(** X7.  The request limit and the node identifier are checked after the
    socket has been bound: in a run without a conflict of socket sources,
    a request limit below 1 or a node identifier over 128 bytes does not
    keep the program from calling [net.Listen], and when that call
    succeeds the run ends in [log.Fatalf] with the listener left behind
    and no server built. *)
Theorem listens_before_validating (fl : Flags) (w : World) :
  socketFileF fl = "" \/ socketFileEnvF fl = "" ->
  (requestLimitF fl < 1)%Z \/ 128 < String.length (nodeIDF fl) ->
  listened (trace (run fl w)) = [("unix", sock_of fl w)]
  /\ (net_Listen w "unix" (sock_of fl w) = None ->
      trace (run fl w)
      = [EvCsilvmSetLogger (logger_of fl); EvLvmSetLogger (logger_of fl);
         EvListen "unix" (sock_of fl w)]
      /\ exists f, result (run fl w) = inl f
                   /\ fatal_format f <> "[%s] Failed to listen: %v").
Proof.
  intros Hno Hbad. apply conflict_false in Hno.
  rewrite run_cases, Hno.
  destruct (net_Listen w "unix" (sock_of fl w)) as [e|].
  { split; [reflexivity | discriminate]. }
  destruct (Z.ltb_spec (requestLimitF fl) 1) as [Hlim|Hlim].
  { split; [reflexivity|]. intros _. split; [reflexivity|].
    eexists. split; [reflexivity | discriminate]. }
  destruct Hbad as [Hbad|Hbad]; [lia|].
  apply Nat.ltb_lt in Hbad. rewrite Hbad.
  split; [reflexivity|]. intros _. split; [reflexivity|].
  eexists. split; [reflexivity | discriminate].
Qed.

Lemma node_id_opts_map (tags : list string) : node_id_opts (map csilvm.Tag tags) = [].
Proof. induction tags as [|t tags IH]; simpl; [|rewrite IH]; reflexivity. Qed.

Lemma node_id_opts_of (fl : Flags) : node_id_opts (opts_of fl) = [nodeIDF fl].
Proof.
  unfold opts_of, node_id_opts. rewrite !flat_map_app. fold node_id_opts.
  rewrite node_id_opts_map. now destruct (removeF fl).
Qed.

(** X8.  Only checked values reach the collaborators: the limit of the
    request-limit interceptor of a gRPC server that is built is at least 1,
    and a volume-group server that is built has exactly one [NodeID]
    option, of at most 128 bytes (the empty identifier included: the flag
    is not required). *)
Theorem servers_get_checked_values (fl : Flags) (w : World) :
  (forall g, In g (grpc_servers (trace (run fl w))) ->
     exists limit,
       g = grpc.NewServer
             [grpc.UnaryInterceptor
                (grpc.ChainUnaryServer
                   [grpc.RequestLimitInterceptor limit;
                    grpc.SerializingInterceptor;
                    grpc.LoggingInterceptor])]
       /\ (1 <= limit)%Z)
  /\ (forall s, In s (servers (trace (run fl w))) ->
        exists id,
          node_id_opts (csilvm.opts s) = [id]
          /\ String.length id <= 128).
Proof.
  rewrite run_cases.
  destruct (conflict fl); [split; intros ? []|].
  destruct (net_Listen w "unix" (sock_of fl w)); [split; intros ? []|].
  destruct (Z.ltb_spec (requestLimitF fl) 1) as [Hlim|Hlim]; [split; intros ? []|].
  destruct (Nat.ltb_spec 128 (String.length (nodeIDF fl))) as [Hlen|Hlen];
    [split; intros ? []|].
  assert (Hg : forall g, grpcServer_of fl = g \/ False ->
            exists limit,
              g = grpc.NewServer
                    [grpc.UnaryInterceptor
                       (grpc.ChainUnaryServer
                          [grpc.RequestLimitInterceptor limit;
                           grpc.SerializingInterceptor;
                           grpc.LoggingInterceptor])]
              /\ (1 <= limit)%Z).
  { intros g [<-|[]]. exists (requestLimitF fl). split; [reflexivity | assumption]. }
  assert (Hs : forall s, server_of fl = s \/ False ->
            exists id,
              node_id_opts (csilvm.opts s) = [id]
              /\ String.length id <= 128).
  { intros s [<-|[]]. exists (nodeIDF fl).
    split; [apply node_id_opts_of | assumption]. }
  destruct (Server_Setup w (server_of fl)); split; assumption.
Qed.

Lemma sock_of_with_Getenv (fl : Flags) (w : World) (getenv : string -> string) :
  (socketFileEnvF fl <> "" ->
   getenv (socketFileEnvF fl) = os_Getenv w (socketFileEnvF fl)) ->
  sock_of fl (with_Getenv w getenv) = sock_of fl w.
Proof.
  intros H. unfold sock_of, resolved. simpl.
  destruct (String.eqb_spec (socketFileEnvF fl) "") as [E|E]; [reflexivity|].
  now rewrite (H E).
Qed.

(** X9.  The environment is read at the one variable that
    [-unix-addr-env] names, and not at all when that flag is empty: a
    change of the environment that leaves this variable as it is changes
    nothing of the run. *)
Theorem run_reads_one_variable (fl : Flags) (w : World) (getenv : string -> string) :
  (socketFileEnvF fl <> "" ->
   getenv (socketFileEnvF fl) = os_Getenv w (socketFileEnvF fl)) ->
  run fl (with_Getenv w getenv) = run fl w.
Proof.
  intros H. rewrite !run_cases.
  unfold to_listen, to_serve.
  rewrite (sock_of_with_Getenv fl w getenv H). reflexivity.
Qed.

(** X10.  The program does not check that it has a path to listen on:
    when [-unix-addr] is empty and [-unix-addr-env] is empty too, or names
    a variable that is unset or empty, [net.Listen] is called on the empty
    address, and the run is not fatal before that call. *)
Theorem empty_path_is_listened_on (fl : Flags) (w : World) :
  socketFileF fl = "" ->
  socketFileEnvF fl = "" \/ os_Getenv w (socketFileEnvF fl) = "" ->
  listened (trace (run fl w)) = [("unix", "")]
  /\ (forall f, result (run fl w) = inl f ->
        fatal_format f <> "[%s] cannot specify -unix-addr and -unix-addr-env").
Proof.
  intros Ha He.
  assert (Hsock : sock_of fl w = "").
  { unfold sock_of, resolved.
    destruct (String.eqb_spec (socketFileEnvF fl) "") as [E|E].
    - now rewrite Ha.
    - destruct He as [He|He]; [contradiction | now rewrite He]. }
  assert (Hc : conflict fl = false) by (apply conflict_false; now left).
  rewrite run_cases, Hc. unfold to_listen. rewrite Hsock.
  destruct (net_Listen w "unix" ""); [split; [reflexivity | intros f [= <-]; discriminate]|].
  destruct (requestLimitF fl <? 1)%Z;
    [split; [reflexivity | intros f [= <-]; discriminate]|].
  destruct (128 <? String.length (nodeIDF fl))%nat;
    [split; [reflexivity | intros f [= <-]; discriminate]|].
  destruct (Server_Setup w (server_of fl));
    (split; [reflexivity|]); [intros f [= <-]|]; discriminate.
Qed.

Lemma fold_flag_set_remove (args : list FlagArg) (fl : Flags) :
  given_remove_volume_group args = false ->
  removeF (fold_left flag_set args fl) = removeF fl.
Proof.
  revert fl. induction args as [|a args IH]; intros fl H; simpl in *; [reflexivity|].
  apply orb_false_iff in H as [Ha H]. rewrite (IH _ H).
  destruct a; try reflexivity; discriminate.
Qed.

Lemma In_opts_of_remove (fl : Flags) :
  In csilvm.RemoveVolumeGroup (opts_of fl) <-> removeF fl = true.
Proof.
  unfold opts_of. split.
  - intros H. apply in_app_or in H as [H|H].
    + simpl in H. destruct H as [H|[H|[H|[]]]]; discriminate.
    + apply in_app_or in H as [H|H].
      * destruct (removeF fl); [reflexivity | destruct H].
      * apply in_map_iff in H as (t & Ht & _). discriminate.
  - intros ->. simpl. auto.
Qed.

(** X11.  A server that is built has the [RemoveVolumeGroup] option
    exactly when the flag [-remove-volume-group] is set; on a command line
    where the flag does not occur the option is absent. *)
Theorem remove_option_when_set (args : list FlagArg) (w : World) (s : csilvm.Server) :
  In s (servers (trace (main args w))) ->
  (In csilvm.RemoveVolumeGroup (csilvm.opts s) <-> removeF (flag_Parse args) = true)
  /\ (given_remove_volume_group args = false ->
      ~ In csilvm.RemoveVolumeGroup (csilvm.opts s)).
Proof.
  unfold main. intros Hs. apply servers_run_In in Hs. subst s.
  cbn [csilvm.opts server_of]. split; [apply In_opts_of_remove|].
  intros H. rewrite In_opts_of_remove. unfold flag_Parse.
  rewrite fold_flag_set_remove by assumption. discriminate.
Qed.

(** X12.  [String] prints a flag value between brackets, its elements
    separated by one space; the empty value prints as [[]].  When the
    value is not empty and no element has a space in it, the elements are
    read back from the printed form by splitting what stands between the
    brackets at the spaces. *)
Theorem String_reads_back (f : stringsFlag) :
  f <> [] ->
  Forall (fun x => strings.ContainsByte x " " = false) f ->
  Value_String ([] : stringsFlag) = "[]"
  /\ exists inner, Value_String f = "[" ++ inner ++ "]"
                   /\ strings.Split inner " " = f.
Proof.
  intros Hne Hall. split; [reflexivity|].
  exists (strings.Join f " "). split; [reflexivity|].
  now apply Split_Join.
Qed.


(** * The further properties at concrete inputs *)

(** The socket is taken: the diagnostic of [net.Listen], nothing built. *)
Lemma listen_failure_fatal_at_taken :
  result (main args_plain listen_fails)
  = inl (mkFatal log.std "[%s] Failed to listen: %v"
           [ArgString "vg0"; ArgError "bind: address already in use"])
  /\ listened (trace (main args_plain listen_fails)) = [("unix", "/tmp/t.sock")]
  /\ grpc_servers (trace (main args_plain listen_fails)) = []
  /\ servers (trace (main args_plain listen_fails)) = []
  /\ setups (trace (main args_plain listen_fails)) = [].
Proof.
  exact (listen_failure_fatal (flag_Parse args_plain) listen_fails
           "bind: address already in use" (or_intror eq_refl) eq_refl).
Defined.

(** [Setup] fails: its diagnostic, nothing registered, nothing served. *)
Lemma setup_failure_fatal_at_missing_group :
  result (main args_plain setup_fails)
  = inl (mkFatal log.std "[%s] error initializing csilvm plugin: err=%v"
           [ArgString "vg0"; ArgError "volume group not found"])
  /\ registrations (trace (main args_plain setup_fails)) = []
  /\ served (trace (main args_plain setup_fails)) = [].
Proof.
  destruct (setup_failure_fatal (flag_Parse args_plain) setup_fails
              "volume group not found" eq_refl eq_refl)
    as (Hr & _ & _ & Hreg & Hserved).
  split; [exact Hr|]. split; [exact Hreg | exact Hserved].
Defined.

(** [-volume-group vg0 -devices /dev/sda -unix-addr /tmp/t.sock]: the run
    returns after serving on the listener of [/tmp/t.sock]. *)
Lemma serving_run_at_plain :
  result (main args_plain quiet) = inr tt
  /\ listened (trace (main args_plain quiet)) = [("unix", "/tmp/t.sock")]
  /\ served (trace (main args_plain quiet))
     = [(grpcServer_of (flag_Parse args_plain),
         Some (mkListener "unix" "/tmp/t.sock"))].
Proof.
  destruct (serving_run (flag_Parse args_plain) quiet eq_refl eq_refl)
    as (Hr & Hl & _ & _ & Hserved & _).
  split; [exact Hr|]. split; [exact Hl | exact Hserved].
Defined.

(** The fatal exit of [-request-limit 0] is one of the five. *)
Lemma fatal_exits_at_limit_0 :
  exists f, result (main args_limit_0 quiet) = inl f
            /\ (requestLimitF (flag_Parse args_limit_0) < 1)%Z
            /\ fatal_args f = [ArgInt 0].
Proof.
  exists (mkFatal log.std
            "request-limit requires a positive, integer value instead of %d"
            [ArgInt 0]).
  split; [reflexivity|].
  destruct (fatal_exits (flag_Parse args_limit_0) quiet
              (mkFatal log.std
                 "request-limit requires a positive, integer value instead of %d"
                 [ArgInt 0]) eq_refl)
    as [(_ & He & _)|[(e & _ & Hl & _)|[(_ & _ & _ & Hlim & _)|[(_ & _ & _ & _ & _ & Hf)|(e & Hp & _)]]]].
  - exfalso. apply He. reflexivity.
  - discriminate Hl.
  - split; [exact Hlim | reflexivity].
  - discriminate Hf.
  - discriminate Hp.
Defined.

(** [-request-limit 0]: the socket is listened on all the same. *)
Lemma listens_before_validating_at_limit_0 :
  (requestLimitF (flag_Parse args_limit_0) < 1)%Z
  /\ listened (trace (main args_limit_0 quiet)) = [("unix", "/tmp/t.sock")]
  /\ servers (trace (main args_limit_0 quiet)) = [].
Proof.
  assert (Hlim : (requestLimitF (flag_Parse args_limit_0) < 1)%Z) by reflexivity.
  destruct (listens_before_validating (flag_Parse args_limit_0) quiet
              (or_intror eq_refl) (or_introl Hlim))
    as (Hl & _).
  split; [exact Hlim|]. split; [exact Hl | reflexivity].
Defined.

(** With [-unix-addr-env SOCK], setting another variable changes
    nothing. *)
Lemma run_reads_one_variable_at_SOCK :
  main args_env
    (with_Getenv with_SOCK
       (fun name => if name =? "SOCK" then "unix:///tmp/x.sock"
                    else if name =? "HOME" then "/root" else ""))
  = main args_env with_SOCK.
Proof.
  apply (run_reads_one_variable (flag_Parse args_env) with_SOCK).
  intros _. reflexivity.
Defined.

(** [-unix-addr-env SOCK] with [SOCK] unset: the empty address. *)
Lemma empty_path_is_listened_on_at_unset :
  os_Getenv quiet "SOCK" = ""
  /\ listened (trace (main args_env quiet)) = [("unix", "")].
Proof.
  split; [reflexivity|].
  exact (proj1 (empty_path_is_listened_on (flag_Parse args_env) quiet
                  eq_refl (or_intror eq_refl))).
Defined.

(** [-remove-volume-group] gives the option, its absence does not. *)
Lemma remove_option_when_set_at_examples :
  In csilvm.RemoveVolumeGroup (csilvm.opts (server_of (flag_Parse args_remove)))
  /\ ~ In csilvm.RemoveVolumeGroup (csilvm.opts (server_of (flag_Parse args_plain))).
Proof.
  split.
  - apply (proj1 (remove_option_when_set args_remove quiet
                    (server_of (flag_Parse args_remove))
                    (or_introl eq_refl))).
    reflexivity.
  - apply (proj2 (remove_option_when_set args_plain quiet
                    (server_of (flag_Parse args_plain))
                    (or_introl eq_refl))).
    reflexivity.
Defined.

(** The tags a, b, c print as [[a b c]] and are read back. *)
Lemma String_reads_back_at_abc :
  exists inner, Value_String (tagsF (flag_Parse args_repeated)) = "[" ++ inner ++ "]"
                /\ strings.Split inner " " = ["a"; "b"; "c"].
Proof.
  apply (String_reads_back (tagsF (flag_Parse args_repeated))).
  - intros H. vm_compute in H. discriminate H.
  - vm_compute. repeat constructor.
Defined.
